(** * Avatar-Tower-Battle: the [Character] class of [main.py]

    A shallow embedding of the stick-figure [Character] (constructor, [move],
    [rotate], [get_position], [draw], [__repr__]) together with the two
    [pygame.draw] primitives it calls and the render loop of [main], and
    the properties of the specification stated over that embedding.

    Modelling choices.
    - Numbers are Python integers, embedded as [Z]: this is what [main]
      passes ([width // 2], [height // 2], [0] and integer offsets), and on
      integers [+] and [% 360] are exact.  Python's [a % 360] on integers is
      the floored remainder, i.e. [Z.modulo].
    - The docstring of the constructor announces floats.  The methods that
      compute with the fields are therefore given a second time over any
      type of numbers ([Numeric]) and instantiated at binary64 floats, with
      Python's float [+] and [%]; this is where statements that hold on
      integers only are separated from those that hold for every number.
    - The object [self] and the target surface live in a two-cell store;
      every method is a computation over that store which may raise.
    - A [pygame.Surface] is observed only through the drawing calls made on
      it, so it is embedded as the log of those calls, oldest first.
    - [body_points] is [None] or a list of pairs.
    - The events that [pygame.event.get()] returns are an input of [main]:
      a function from the number of the poll to the list of events.  The
      loop of [main] need not end, so it is run with a bound on the number
      of passes. *)

From Stdlib Require Import ZArith List Bool Lia PeanoNat.
From Stdlib Require String Ascii DecimalString DecimalZ.
From Stdlib Require PrimFloat SpecFloat FloatOps.
Import ListNotations.

Open Scope Z_scope.

(** ** Exceptions and results *)

Inductive exn : Type :=
| IndexError
| TypeError.

Inductive result (A : Type) : Type :=
| Ok (a : A)
| Raise (e : exn).

Arguments Ok {A} a.
Arguments Raise {A} e.

(** ** The pygame side: surfaces as logs of drawing calls *)

Definition Color : Type := (Z * Z * Z)%type.
Definition Point : Type := (Z * Z)%type.

Inductive DrawCall : Type :=
| Line (color : Color) (start_pos end_pos : Point) (width : Z)
| Circle (color : Color) (center : Point) (radius : Z).

Definition Surface : Type := list DrawCall.

Definition is_line (d : DrawCall) : bool :=
  match d with Line _ _ _ _ => true | Circle _ _ _ => false end.

Definition is_circle (d : DrawCall) : bool :=
  match d with Line _ _ _ _ => false | Circle _ _ _ => true end.

Definition call_color (d : DrawCall) : Color :=
  match d with Line c _ _ _ => c | Circle c _ _ => c end.

(** ** The data model *)

Record Character : Type := mkCharacter {
  x : Z;
  y : Z;
  orientation : Z;
  body_points : option (list (Z * Z))
}.

Record Store : Type := mkStore {
  self : Character;
  surface : Surface
}.

(** ** A state-and-exception monad over the store *)

Definition M (A : Type) : Type := Store -> result (A * Store).

Definition ret {A} (a : A) : M A := fun s => Ok (a, s).

Definition bind {A B} (m : M A) (k : A -> M B) : M B :=
  fun s => match m s with
           | Ok (a, s') => k a s'
           | Raise e => Raise e
           end.

Definition lift {A} (r : result A) : M A :=
  fun s => match r with
           | Ok a => Ok (a, s)
           | Raise e => Raise e
           end.

Definition get_self : M Character := fun s => Ok (self s, s).

Definition set_self (c : Character) : M unit :=
  fun s => Ok (tt, mkStore c (surface s)).

Declare Scope py_scope.
Delimit Scope py_scope with py.
Notation "v <- m ;; k" := (bind m (fun v => k))
  (at level 100, m at next level, right associativity) : py_scope.
Notation "m ;;; k" := (bind m (fun _ => k))
  (at level 100, right associativity) : py_scope.
Open Scope py_scope.

(** [for v in l: body v] *)
Fixpoint for_each {A} (l : list A) (body : A -> M unit) : M unit :=
  match l with
  | [] => ret tt
  | v :: l' => body v ;;; for_each l' body
  end.

(** [[f i for i in l]] *)
Fixpoint comprehension {A B} (f : A -> M B) (l : list A) : M (list B) :=
  match l with
  | [] => ret []
  | i :: l' => v <- f i ;; vs <- comprehension f l' ;; ret (v :: vs)
  end.

(** ** Python built-ins used by [draw] *)

(** Truth value of [body_points]: [None] and the empty list are falsy. *)
Definition truthy {A} (v : option (list A)) : bool :=
  match v with
  | None => false
  | Some [] => false
  | Some (_ :: _) => true
  end.

(** [len(v)]: [None] has no length. *)
Definition len {A} (v : option (list A)) : result nat :=
  match v with
  | None => Raise TypeError
  | Some l => Ok (length l)
  end.

(** [l[i]] on a list, for an index [i >= 0]. *)
Definition list_getitem {A} (l : list A) (i : nat) : result A :=
  match nth_error l i with
  | Some a => Ok a
  | None => Raise IndexError
  end.

(** [v[i]] where [v] may be [None]. *)
Definition getitem {A} (v : option (list A)) (i : nat) : result A :=
  match v with
  | None => Raise TypeError
  | Some l => list_getitem l i
  end.

(** [range(n)] *)
Definition range (n : nat) : list nat := seq 0 n.

(** [pygame.draw.line(surface, color, start_pos, end_pos, width)] *)
Definition pygame_draw_line (color : Color) (start_pos end_pos : Point)
  (width : Z) : M unit :=
  fun s => Ok (tt, mkStore (self s)
                     (surface s ++ [Line color start_pos end_pos width])).

(** [pygame.draw.circle(surface, color, center, radius)] *)
Definition pygame_draw_circle (color : Color) (center : Point)
  (radius : Z) : M unit :=
  fun s => Ok (tt, mkStore (self s) (surface s ++ [Circle color center radius])).

(** ** The class [Character] *)

(** [Character.__init__(self, x, y, orientation, body_points)] *)
Definition __init__ (x0 y0 orientation0 : Z)
  (body_points0 : option (list (Z * Z))) : Character :=
  mkCharacter x0 y0 orientation0 body_points0.

(** [Character.move(self, dx, dy)] *)
Definition move (dx dy : Z) : M unit :=
  c <- get_self ;;
  set_self (mkCharacter (x c + dx) (y c) (orientation c) (body_points c)) ;;;
  c <- get_self ;;
  set_self (mkCharacter (x c) (y c + dy) (orientation c) (body_points c)).

(** [Character.rotate(self, angle)] *)
Definition rotate (angle : Z) : M unit :=
  c <- get_self ;;
  set_self (mkCharacter (x c) (y c) ((orientation c + angle) mod 360)
              (body_points c)).

(** [Character.get_position(self)] *)
Definition get_position : M (Z * Z) :=
  c <- get_self ;;
  ret (x c, y c).

(** The guard of [draw]:
    [not self.body_points or len(self.body_points) < 11], with the
    short-circuit evaluation of [or]. *)
Definition draw_guard : M bool :=
  c <- get_self ;;
  if negb (truthy (body_points c)) then ret true
  else
    c <- get_self ;;
    n <- lift (len (body_points c)) ;;
    ret (Nat.ltb n 11).

(** One element of the comprehension:
    [(self.body_points[i][0] + self.x, self.body_points[i][1] + self.y)] *)
Definition draw_point (i : nat) : M Point :=
  c <- get_self ;;
  a <- lift (getitem (body_points c) i) ;;
  cx <- get_self ;;
  c' <- get_self ;;
  b <- lift (getitem (body_points c') i) ;;
  cy <- get_self ;;
  ret (fst a + x cx, snd b + y cy).

(** [points = [... for i in range(11)]] *)
Definition draw_points : M (list Point) :=
  comprehension draw_point (range 11).

(** [pygame.draw.line(surface, color, points[i], points[j], line_width)] *)
Definition draw_segment (color : Color) (points : list Point) (i j : nat)
  (line_width : Z) : M unit :=
  p <- lift (list_getitem points i) ;;
  q <- lift (list_getitem points j) ;;
  pygame_draw_line color p q line_width.

(** [Character.draw(self, surface, color, line_width, point_radius)] *)
Definition draw (color : Color) (line_width point_radius : Z) : M unit :=
  skip <- draw_guard ;;
  if skip then ret tt
  else
    points <- draw_points ;;
    draw_segment color points 0 1 line_width ;;;
    draw_segment color points 1 2 line_width ;;;
    draw_segment color points 3 4 line_width ;;;
    draw_segment color points 4 5 line_width ;;;
    draw_segment color points 0 6 line_width ;;;
    draw_segment color points 3 6 line_width ;;;
    draw_segment color points 6 7 line_width ;;;
    draw_segment color points 7 8 line_width ;;;
    draw_segment color points 6 9 line_width ;;;
    draw_segment color points 9 10 line_width ;;;
    for_each points (fun point => pygame_draw_circle color point point_radius).

(** The default arguments of [draw]. *)
Definition default_color : Color := (255, 255, 255).
Definition default_line_width : Z := 2.
Definition default_point_radius : Z := 4.

(** The pose built in [main], and the character [main] constructs. *)
Definition main_body_points : list (Z * Z) :=
  [(-10, -30); (-20, -10); (-30, 5);
   (10, -30); (20, -10); (30, 5);
   (0, 0); (-5, 20); (-5, 40); (5, 20); (5, 40)].

Definition main_character : Character :=
  __init__ (800 / 2) (600 / 2) 0 (Some main_body_points).

(** ** Vocabulary of the specification *)

(** The eleven joints and the index each one has in [body_points]. *)
Inductive Joint : Type :=
| left_shoulder | left_elbow | left_hand
| right_shoulder | right_elbow | right_hand
| waist
| left_knee | left_feet
| right_knee | right_feet.

Definition joint_index (j : Joint) : nat :=
  match j with
  | left_shoulder => 0 | left_elbow => 1 | left_hand => 2
  | right_shoulder => 3 | right_elbow => 4 | right_hand => 5
  | waist => 6
  | left_knee => 7 | left_feet => 8
  | right_knee => 9 | right_feet => 10
  end%nat.

Definition all_joints : list Joint :=
  [left_shoulder; left_elbow; left_hand;
   right_shoulder; right_elbow; right_hand;
   waist; left_knee; left_feet; right_knee; right_feet].

(** The ten bones of the figure, in the order they are drawn. *)
Definition bones : list (Joint * Joint) :=
  [(left_shoulder, left_elbow); (left_elbow, left_hand);
   (right_shoulder, right_elbow); (right_elbow, right_hand);
   (left_shoulder, waist); (right_shoulder, waist);
   (waist, left_knee); (left_knee, left_feet);
   (waist, right_knee); (right_knee, right_feet)].

(** Position of a joint in a list of points. *)
Definition at_joint (points : list Point) (j : Joint) : Point :=
  nth (joint_index j) points (0, 0).

(** An offset made absolute: the character's position plus the offset. *)
Definition absolute (c : Character) (o : Z * Z) : Point :=
  (fst o + x c, snd o + y c).

Definition skeleton (color : Color) (line_width : Z) (points : list Point)
  : list DrawCall :=
  map (fun b => Line color (at_joint points (fst b)) (at_joint points (snd b))
                  line_width) bones.

Definition joint_discs (color : Color) (point_radius : Z)
  (points : list Point) : list DrawCall :=
  map (fun p => Circle color p point_radius) points.

(** Everything one rendering [draw] call sends to the surface. *)
Definition figure (color : Color) (line_width point_radius : Z)
  (points : list Point) : list DrawCall :=
  skeleton color line_width points ++ joint_discs color point_radius points.

Definition normalized (a : Z) : Prop := 0 <= a < 360.

Definition with_orientation (o : Z) (s : Store) : Store :=
  mkStore (mkCharacter (x (self s)) (y (self s)) o (body_points (self s)))
    (surface s).

Definition with_body_points (bp : option (list (Z * Z))) (s : Store) : Store :=
  mkStore (mkCharacter (x (self s)) (y (self s)) (orientation (self s)) bp)
    (surface s).

(** ** Clients of the class: arbitrary sequences of method calls *)

Inductive Call : Type :=
| CallMove (dx dy : Z)
| CallRotate (angle : Z)
| CallGetPosition
| CallDraw (color : Color) (line_width point_radius : Z).

Definition run_call (k : Call) : M unit :=
  match k with
  | CallMove dx dy => move dx dy
  | CallRotate angle => rotate angle
  | CallGetPosition => get_position ;;; ret tt
  | CallDraw color line_width point_radius =>
      draw color line_width point_radius
  end.

Definition run_calls (ks : list Call) : M unit := for_each ks run_call.

Definition is_rotate (k : Call) : bool :=
  match k with CallRotate _ => true | _ => false end.

(** ** [Character.__repr__] *)

(** [str(n)] for an integer [n]: decimal digits, ["-"] in front of a
    negative number, ["0"] for zero. *)
Definition str (n : Z) : String.string :=
  DecimalString.NilEmpty.string_of_int (Z.to_int n).

Section Repr.
Import String.
Local Open Scope string_scope.

(** [f"Character(x={self.x}, y={self.y}, orientation={self.orientation})"] *)
Definition __repr__ : M string :=
  cx <- get_self ;;
  cy <- get_self ;;
  co <- get_self ;;
  ret ("Character(x=" ++ str (x cx) ++ ", y=" ++ str (y cy) ++
       ", orientation=" ++ str (orientation co) ++ ")").

(** The window title given in [main]. *)
Definition main_caption : string := "Character Display".

End Repr.


(** ** [main]: the pygame session and the render loop *)

(** Event types: [pygame.QUIT] and all the others. *)
Inductive EventType : Type :=
| QUIT
| OtherEvent (code : Z).

Record Event : Type := mkEvent { type : EventType }.

(** [event.type == pygame.QUIT] *)
Definition is_QUIT (e : Event) : bool :=
  match type e with QUIT => true | OtherEvent _ => false end.

(** What the program can observe or change of pygame.  The screen keeps the
    colour of its last [fill] and the calls drawn on it since: [fill] with no
    rectangle repaints the whole surface. *)
Record Pygame : Type := mkPygame {
  initialized : bool;
  display_mode : option (Z * Z);
  display_caption : String.string;
  event_polls : nat;
  screen_color : Color;
  screen : Surface;
  flipped : list (Color * Surface);
  clock_ticks : list Z
}.

(** The process before [pygame.init()]. *)
Definition no_pygame : Pygame :=
  mkPygame false None String.EmptyString 0 (0, 0, 0) [] [] [].

(** [pygame.init()] *)
Definition pygame_init (p : Pygame) : Pygame :=
  mkPygame true (display_mode p) (display_caption p) (event_polls p)
    (screen_color p) (screen p) (flipped p) (clock_ticks p).

(** [pygame.display.set_mode(size)]: a fresh black screen of that size. *)
Definition pygame_display_set_mode (size : Z * Z) (p : Pygame) : Pygame :=
  mkPygame (initialized p) (Some size) (display_caption p) (event_polls p)
    (0, 0, 0) [] (flipped p) (clock_ticks p).

(** [pygame.display.set_caption(title)] *)
Definition pygame_display_set_caption (title : String.string) (p : Pygame)
  : Pygame :=
  mkPygame (initialized p) (display_mode p) title (event_polls p)
    (screen_color p) (screen p) (flipped p) (clock_ticks p).

(** [screen.fill(color)] *)
Definition screen_fill (color : Color) (p : Pygame) : Pygame :=
  mkPygame (initialized p) (display_mode p) (display_caption p)
    (event_polls p) color [] (flipped p) (clock_ticks p).

(** [pygame.display.flip()]: the screen as it is now is shown. *)
Definition pygame_display_flip (p : Pygame) : Pygame :=
  mkPygame (initialized p) (display_mode p) (display_caption p)
    (event_polls p) (screen_color p) (screen p)
    (flipped p ++ [(screen_color p, screen p)]) (clock_ticks p).

(** [clock.tick(framerate)] *)
Definition clock_tick (framerate : Z) (p : Pygame) : Pygame :=
  mkPygame (initialized p) (display_mode p) (display_caption p)
    (event_polls p) (screen_color p) (screen p) (flipped p)
    (clock_ticks p ++ [framerate]).

(** [pygame.quit()] *)
Definition pygame_quit (p : Pygame) : Pygame :=
  mkPygame false (display_mode p) (display_caption p) (event_polls p)
    (screen_color p) (screen p) (flipped p) (clock_ticks p).

(** The locals of [main] that the loop reads and writes, and pygame. *)
Record MainState : Type := mkMainState {
  character : Character;
  running : bool;
  pygame : Pygame
}.

(** [[for event in evs: if event.type == pygame.QUIT: running = False]] *)
Definition handle_events (evs : list Event) (running0 : bool) : bool :=
  fold_left (fun r event => if is_QUIT event then false else r) evs running0.

(** [character.draw(screen)], with the default colour, width and radius:
    [draw] runs on the store made of the character and the screen. *)
Definition draw_on_screen (c : Character) (p : Pygame)
  : result (Character * Pygame) :=
  match draw default_color default_line_width default_point_radius
          (mkStore c (screen p)) with
  | Ok (_, s') =>
      Ok (self s',
          mkPygame (initialized p) (display_mode p) (display_caption p)
            (event_polls p) (screen_color p) (surface s') (flipped p)
            (clock_ticks p))
  | Raise e => Raise e
  end.

Section Main.

(** [events n] is what the call number [n] of [pygame.event.get()]
    returns. *)
Variable events : nat -> list Event.

(** [pygame.event.get()] *)
Definition pygame_event_get (p : Pygame) : list Event * Pygame :=
  (events (event_polls p),
   mkPygame (initialized p) (display_mode p) (display_caption p)
     (S (event_polls p)) (screen_color p) (screen p) (flipped p)
     (clock_ticks p)).

(** One pass through the body of [while running]. *)
Definition main_frame (st : MainState) : result MainState :=
  let (evs, p1) := pygame_event_get (pygame st) in
  let running1 := handle_events evs (running st) in
  let p2 := screen_fill (0, 0, 0) p1 in
  match draw_on_screen (character st) p2 with
  | Raise e => Raise e
  | Ok (c3, p3) =>
      let p4 := pygame_display_flip p3 in
      let p5 := clock_tick 60 p4 in
      Ok (mkMainState c3 running1 p5)
  end.

(** [while running: ...], with at most [fuel] passes; [None] when the
    loop is still running after that many. *)
Fixpoint main_loop (fuel : nat) (st : MainState) : option (result MainState) :=
  if negb (running st) then Some (Ok st)
  else
    match fuel with
    | O => None
    | S fuel' =>
        match main_frame st with
        | Raise e => Some (Raise e)
        | Ok st' => main_loop fuel' st'
        end
    end.

(** [main()], started in a fresh process. *)
Definition main (fuel : nat) : option (result Pygame) :=
  let p := pygame_init no_pygame in
  let width := 800 in
  let height := 600 in
  let p := pygame_display_set_mode (width, height) p in
  let p := pygame_display_set_caption main_caption p in
  (* clock = pygame.time.Clock(): a fresh clock, observed through
     [clock_ticks] only *)
  let body_points0 := main_body_points in
  let character0 := __init__ (width / 2) (height / 2) 0 (Some body_points0) in
  match main_loop fuel (mkMainState character0 true p) with
  | None => None
  | Some (Raise e) => Some (Raise e)
  | Some (Ok st) => Some (Ok (pygame_quit (pygame st)))
  end.

End Main.

(** ** Vocabulary for the further properties *)

(** A drawing call moved by [(dx, dy)]. *)
Definition translate_point (dx dy : Z) (p : Point) : Point :=
  (fst p + dx, snd p + dy).

Definition translate_call (dx dy : Z) (d : DrawCall) : DrawCall :=
  match d with
  | Line color p q width =>
      Line color (translate_point dx dy p) (translate_point dx dy q) width
  | Circle color p radius => Circle color (translate_point dx dy p) radius
  end.

(** Sums of the arguments of the [move] and [rotate] calls of a sequence. *)
Fixpoint total_dx (ks : list Call) : Z :=
  match ks with
  | [] => 0
  | CallMove dx _ :: ks' => dx + total_dx ks'
  | _ :: ks' => total_dx ks'
  end.

Fixpoint total_dy (ks : list Call) : Z :=
  match ks with
  | [] => 0
  | CallMove _ dy :: ks' => dy + total_dy ks'
  | _ :: ks' => total_dy ks'
  end.

Fixpoint total_angle (ks : list Call) : Z :=
  match ks with
  | [] => 0
  | CallRotate angle :: ks' => angle + total_angle ks'
  | _ :: ks' => total_angle ks'
  end.

(** The picture [main] shows: the figure of its pose at (400, 300). *)
Definition main_figure : Surface :=
  figure default_color default_line_width default_point_radius
    (map (absolute main_character) main_body_points).

(** The black frame [main] fills the screen with. *)
Definition black : Color := (0, 0, 0).

(** The state of [main] at the top of the loop after [k] passes. *)
Definition main_state_after (k : nat) (running0 : bool) : MainState :=
  mkMainState main_character running0
    (mkPygame true (Some (800, 600)) main_caption k black
       (match k with O => [] | S _ => main_figure end)
       (repeat (black, main_figure) k) (repeat 60 k)).

(** What is left of pygame when [main] returns after [k] passes. *)
Definition main_result (k : nat) : Pygame :=
  mkPygame false (Some (800, 600)) main_caption k black main_figure
    (repeat (black, main_figure) k) (repeat 60 k).

(** ** The field arithmetic, for any one kind of Python number

    [move], [rotate] and [get_position] use the fields only through [+] and
    [% 360].  Here they are once more, over any type of numbers with these
    two operations: at the integers this is the model above (see
    [rotate_is_numeric_at_int] and [move_is_numeric_at_int]), at the floats
    it is what the same code does on [float] fields. *)

Module Numeric.
Section Numbers.

Variable num : Type.
(** [a + b] *)
Variable add : num -> num -> num.
(** [a % 360] *)
Variable mod_360 : num -> num.

Record Character : Type := mkCharacter {
  x : num;
  y : num;
  orientation : num;
  body_points : option (list (num * num))
}.

(** [Character.__init__(self, x, y, orientation, body_points)] *)
Definition __init__ (x0 y0 orientation0 : num)
  (body_points0 : option (list (num * num))) : Character :=
  mkCharacter x0 y0 orientation0 body_points0.

(** [Character.move(self, dx, dy)] *)
Definition move (dx dy : num) (c : Character) : Character :=
  let c1 := mkCharacter (add (x c) dx) (y c) (orientation c) (body_points c) in
  mkCharacter (x c1) (add (y c1) dy) (orientation c1) (body_points c1).

(** [Character.rotate(self, angle)] *)
Definition rotate (angle : num) (c : Character) : Character :=
  mkCharacter (x c) (y c) (mod_360 (add (orientation c) angle)) (body_points c).

(** [Character.get_position(self)] *)
Definition get_position (c : Character) : num * num := (x c, y c).

End Numbers.
End Numeric.

(** Integer fields: [int + int] and [int % 360]. *)
Definition int_mod_360 (a : Z) : Z := a mod 360.

Definition numeric_of_character (c : Character) : Numeric.Character Z :=
  Numeric.mkCharacter Z (x c) (y c) (orientation c) (body_points c).

Definition character_of_numeric (c : Numeric.Character Z) : Character :=
  mkCharacter (Numeric.x Z c) (Numeric.y Z c) (Numeric.orientation Z c)
    (Numeric.body_points Z c).

(** ** Float fields *)

(** C's [fmod(vx, wx)]: the exact remainder of [vx] by [wx] with the sign of
    [vx], computed on the mantissas and exponents of the two doubles. *)
Definition fmod (vx wx : PrimFloat.float) : PrimFloat.float :=
  match FloatOps.Prim2SF vx, FloatOps.Prim2SF wx with
  | SpecFloat.S754_nan, _ => PrimFloat.nan
  | _, SpecFloat.S754_nan => PrimFloat.nan
  | SpecFloat.S754_infinity _, _ => PrimFloat.nan
  | _, SpecFloat.S754_zero _ => PrimFloat.nan
  | SpecFloat.S754_zero _, _ => vx
  | SpecFloat.S754_finite _ _ _, SpecFloat.S754_infinity _ => vx
  | SpecFloat.S754_finite sx mx ex, SpecFloat.S754_finite _ my ey =>
      let e := Z.min ex ey in
      let r := (Zpos mx * 2 ^ (ex - e)) mod (Zpos my * 2 ^ (ey - e)) in
      FloatOps.SF2Prim
        (SpecFloat.binary_normalize FloatOps.prec FloatOps.emax
           (if sx then - r else r) e sx)
  end.

Section FloatFields.
Import PrimFloat.
Local Open Scope float_scope.
#[local] Set Warnings "-inexact-float".

(** [float + float] *)
Definition float_add (a b : float) : float := a + b.

(** Python's [vx % wx] on floats, for [wx] other than zero (CPython's
    [float_rem]; the only divisor in the program is 360): [fmod], then the
    remainder is given the sign of the divisor. *)
Definition float_rem (vx wx : float) : float :=
  let mod_ := fmod vx wx in
  if negb (mod_ =? 0) then
    if xorb (wx <? 0) (mod_ <? 0) then mod_ + wx else mod_
  else if get_sign wx then -0 else 0.

(** [a % 360] on a float [a]: the integer 360 is converted to 360.0. *)
Definition float_mod_360 (a : float) : float := float_rem a 360.

(** [Character.rotate] and [Character.move] on float fields. *)
Definition rotate_float (angle : float) (c : Numeric.Character float)
  : Numeric.Character float :=
  Numeric.rotate float float_add float_mod_360 angle c.

Definition move_float (dx dy : float) (c : Numeric.Character float)
  : Numeric.Character float :=
  Numeric.move float float_add dx dy c.

(** A character with float fields at (400.0, 300.0) and no pose. *)
Definition float_character (orientation0 : float) : Numeric.Character float :=
  Numeric.__init__ float 400 300 orientation0 None.

(** [0 <= a < 360] on floats. *)
Definition float_normalized (a : float) : bool := (0 <=? a) && (a <? 360).


End FloatFields.

(** * Properties *)

(** ** [move], [rotate], [get_position] *)

Lemma move_spec (dx dy : Z) (s : Store) :
  move dx dy s =
  Ok (tt, mkStore (mkCharacter (x (self s) + dx) (y (self s) + dy)
                     (orientation (self s)) (body_points (self s)))
            (surface s)).
Proof. reflexivity. Qed.

Lemma rotate_spec (angle : Z) (s : Store) :
  rotate angle s =
  Ok (tt, mkStore (mkCharacter (x (self s)) (y (self s))
                     ((orientation (self s) + angle) mod 360)
                     (body_points (self s)))
            (surface s)).
Proof. reflexivity. Qed.

Lemma get_position_spec (s : Store) :
  get_position s = Ok ((x (self s), y (self s)), s).
Proof. reflexivity. Qed.


(** C3. For every character and every [(dx, dy)], [move(dx, dy)] followed
    by [get_position()] returns the position before the call plus
    [(dx, dy)], componentwise; from (400, 300), [move(10, -5)] gives
    (410, 295). *)
Theorem move_then_get_position :
  (forall (dx dy : Z) (s : Store),
      exists s', (move dx dy ;;; get_position) s =
                 Ok ((x (self s) + dx, y (self s) + dy), s')) /\
  (forall o bp surf,
      exists s', (move 10 (-5) ;;; get_position)
                   (mkStore (__init__ 400 300 o bp) surf) =
                 Ok ((410, 295), s')).
Proof.
  split; intros; eexists; reflexivity.
Qed.

(** C8. [move(dx, dy)] changes the position fields only: the new position
    is the old one plus [(dx, dy)] whatever the values (nothing is clamped
    or rejected), [orientation] and [body_points] keep their values and
    nothing is drawn; [get_position()] returns the position and leaves
    every field as it was. *)
Theorem move_and_get_position_frame :
  (forall (dx dy : Z) (s : Store),
      exists s', move dx dy s = Ok (tt, s') /\
                 x (self s') = x (self s) + dx /\
                 y (self s') = y (self s) + dy /\
                 orientation (self s') = orientation (self s) /\
                 body_points (self s') = body_points (self s) /\
                 surface s' = surface s) /\
  (forall s : Store, get_position s = Ok ((x (self s), y (self s)), s)).
Proof.
  split.
  - intros dx dy s. rewrite move_spec. eexists. split; [reflexivity|].
    cbn. repeat split.
  - intros s. apply get_position_spec.
Qed.

(** ** [draw]: the guard *)

(** The value of the guard as a function of [body_points]. *)
Lemma draw_guard_spec (s : Store) :
  draw_guard s =
  Ok (match body_points (self s) with
      | None => true
      | Some l => Nat.ltb (length l) 11
      end, s).
Proof.
  unfold draw_guard, bind, get_self, lift.
  destruct (body_points (self s)) as [[|o l]|] eqn:E; cbn [truthy negb];
    try reflexivity.
  rewrite E. reflexivity.
Qed.

Lemma draw_skips (color : Color) (lw pr : Z) (s : Store) :
  match body_points (self s) with
  | None => True
  | Some l => (length l < 11)%nat
  end ->
  draw color lw pr s = Ok (tt, s).
Proof.
  intros H. unfold draw, bind. rewrite draw_guard_spec.
  destruct (body_points (self s)) as [l|]; [|reflexivity].
  apply Nat.ltb_lt in H. rewrite H. reflexivity.
Qed.

(** ** [draw]: the list of absolute points *)

Lemma skipn_nth_error {A} (l : list A) :
  forall (k : nat) (a : A),
    nth_error l k = Some a -> skipn k l = a :: skipn (S k) l.
Proof.
  induction l as [|h t IH]; intros [|k] a H; cbn in H; try discriminate.
  - injection H as ->. reflexivity.
  - cbn [skipn]. rewrite (IH k a H). reflexivity.
Qed.

Lemma draw_point_spec (s : Store) (bp : list (Z * Z)) (i : nat) (o : Z * Z) :
  body_points (self s) = Some bp ->
  nth_error bp i = Some o ->
  draw_point i s = Ok (absolute (self s) o, s).
Proof.
  intros Hbp Hi. unfold draw_point, bind, get_self, lift, getitem, list_getitem.
  do 2 (rewrite Hbp, Hi; cbv beta iota).
  reflexivity.
Qed.

Lemma comprehension_draw_point (s : Store) (bp : list (Z * Z)) :
  body_points (self s) = Some bp ->
  forall n k : nat,
    (k + n <= length bp)%nat ->
    comprehension draw_point (seq k n) s =
    Ok (map (absolute (self s)) (firstn n (skipn k bp)), s).
Proof.
  intros Hbp. induction n as [|n IH]; intros k Hk.
  - reflexivity.
  - destruct (nth_error bp k) as [o|] eqn:Ho.
    + cbn [seq comprehension]. unfold bind at 1.
      rewrite (draw_point_spec s bp k o Hbp Ho).
      unfold bind at 1. rewrite IH by lia.
      rewrite (skipn_nth_error bp k o Ho). reflexivity.
    + apply nth_error_None in Ho. lia.
Qed.

Lemma draw_points_spec (s : Store) (bp : list (Z * Z)) :
  body_points (self s) = Some bp ->
  (11 <= length bp)%nat ->
  draw_points s = Ok (map (absolute (self s)) (firstn 11 bp), s).
Proof.
  intros Hbp Hlen. unfold draw_points, range.
  rewrite (comprehension_draw_point s bp Hbp 11 0) by lia.
  reflexivity.
Qed.

(** ** [draw]: lines and circles *)

Lemma for_each_circles (color : Color) (pr : Z) (points : list Point) :
  forall s : Store,
    for_each points (fun point => pygame_draw_circle color point pr) s =
    Ok (tt, mkStore (self s) (surface s ++ joint_discs color pr points)).
Proof.
  induction points as [|p ps IH]; intros s.
  - cbn. rewrite app_nil_r. destruct s; reflexivity.
  - cbn [for_each]. unfold bind, pygame_draw_circle at 1. rewrite IH.
    cbn [self surface joint_discs map]. rewrite <- app_assoc. reflexivity.
Qed.

(** A list with at least eleven entries starts with eleven entries. *)
Lemma firstn_11 {A} (l : list A) :
  (11 <= length l)%nat ->
  exists a0 a1 a2 a3 a4 a5 a6 a7 a8 a9 a10,
    firstn 11 l = [a0; a1; a2; a3; a4; a5; a6; a7; a8; a9; a10].
Proof.
  intros H.
  do 11 (destruct l as [|? l]; [cbn in H; lia|]).
  repeat eexists.
Qed.

(** What a rendering [draw] does: the store's character is left as it is
    and the figure of the first eleven offsets is appended to the surface. *)
Lemma draw_renders (color : Color) (lw pr : Z) (s : Store)
  (bp : list (Z * Z)) :
  body_points (self s) = Some bp ->
  (11 <= length bp)%nat ->
  draw color lw pr s =
  Ok (tt, mkStore (self s)
            (surface s ++
             figure color lw pr (map (absolute (self s)) (firstn 11 bp)))).
Proof.
  intros Hbp Hlen. unfold draw. unfold bind at 1. rewrite draw_guard_spec, Hbp.
  apply Nat.ltb_ge in Hlen. rewrite Hlen.
  apply Nat.ltb_ge in Hlen.
  unfold bind at 1. rewrite (draw_points_spec s bp Hbp Hlen).
  destruct (firstn_11 bp Hlen)
    as (a0 & a1 & a2 & a3 & a4 & a5 & a6 & a7 & a8 & a9 & a10 & ->).
  cbn [map].
  repeat (unfold bind at 1;
          unfold draw_segment at 1;
          cbn [bind lift list_getitem nth_error pygame_draw_line self surface]).
  rewrite for_each_circles. cbn [self surface].
  unfold figure, skeleton, bones, at_joint.
  cbn [map joint_index nth fst snd].
  rewrite <- !app_assoc. reflexivity.
Qed.

(** [draw] never raises, returns [None], leaves the character alone and only
    appends to the surface. *)
Lemma draw_total (color : Color) (lw pr : Z) (s : Store) :
  exists calls : list DrawCall,
    draw color lw pr s = Ok (tt, mkStore (self s) (surface s ++ calls)).
Proof.
  destruct (body_points (self s)) as [bp|] eqn:Hbp.
  - destruct (Nat.ltb (length bp) 11) eqn:Hlen.
    + exists []. rewrite draw_skips.
      * rewrite app_nil_r. destruct s; reflexivity.
      * rewrite Hbp. apply Nat.ltb_lt. exact Hlen.
    + apply Nat.ltb_ge in Hlen. eexists. apply (draw_renders _ _ _ _ bp Hbp Hlen).
  - exists []. rewrite draw_skips.
    + rewrite app_nil_r. destruct s; reflexivity.
    + rewrite Hbp. exact I.
Qed.

(** ** Claims about [draw] *)

(** C1. For a character whose [body_points] holds exactly 11 offset pairs,
    [draw] computes 11 points, the point at each index being the character's
    position plus the offset at that index, componentwise; these are the
    points it renders, and they do not depend on the stored orientation. *)
Theorem draw_joint_is_position_plus_offset
  (color : Color) (lw pr : Z) (s : Store) (bp : list (Z * Z)) :
  body_points (self s) = Some bp ->
  length bp = 11%nat ->
  exists points : list Point,
    draw_points s = Ok (points, s) /\
    length points = 11%nat /\
    (forall (i : nat) (o : Z * Z),
        nth_error bp i = Some o ->
        nth_error points i = Some (fst o + x (self s), snd o + y (self s))) /\
    draw color lw pr s =
      Ok (tt, mkStore (self s) (surface s ++ figure color lw pr points)) /\
    (forall o' : Z,
        draw_points (with_orientation o' s) = Ok (points, with_orientation o' s) /\
        draw color lw pr (with_orientation o' s) =
          Ok (tt, mkStore (self (with_orientation o' s))
                    (surface s ++ figure color lw pr points))).
Proof.
  intros Hbp Hlen.
  assert (Hge : (11 <= length bp)%nat) by lia.
  assert (Hall : firstn 11 bp = bp) by (rewrite <- Hlen; apply firstn_all).
  exists (map (absolute (self s)) bp). repeat split.
  - rewrite (draw_points_spec s bp Hbp Hge), Hall. reflexivity.
  - rewrite length_map. exact Hlen.
  - intros i o Hi. rewrite nth_error_map, Hi. reflexivity.
  - rewrite (draw_renders color lw pr s bp Hbp Hge), Hall. reflexivity.
  - rewrite (draw_points_spec (with_orientation o' s) bp Hbp Hge), Hall.
    reflexivity.
  - rewrite (draw_renders color lw pr (with_orientation o' s) bp Hbp Hge), Hall.
    reflexivity.
Qed.

Lemma draw_joint_is_position_plus_offset_witness :
  exists points : list Point,
    draw_points (mkStore main_character []) =
      Ok (points, mkStore main_character []) /\
    nth_error points 2 = Some (370, 305).
Proof.
  destruct (draw_joint_is_position_plus_offset default_color
              default_line_width default_point_radius
              (mkStore main_character []) main_body_points eq_refl eq_refl)
    as (points & Hpts & _ & Hnth & _).
  exists points. split; [exact Hpts|].
  exact (Hnth 2%nat (-30, 5) eq_refl).
Defined.

(** C4. When [body_points] is absent, empty or has fewer than 11 entries,
    [draw] returns normally at once: no exception, no drawing call, the
    store is exactly as before. *)
Theorem draw_fewer_than_11_is_noop
  (color : Color) (lw pr : Z) (s : Store) :
  body_points (self s) = None \/
  (exists l, body_points (self s) = Some l /\ (length l < 11)%nat) ->
  draw color lw pr s = Ok (tt, s).
Proof.
  intros [H | (l & H & Hl)]; apply draw_skips; rewrite H; [exact I | exact Hl].
Qed.

Lemma draw_fewer_than_11_is_noop_witness :
  draw default_color default_line_width default_point_radius
    (mkStore (__init__ 400 300 0 (Some (firstn 10 main_body_points))) []) =
  Ok (tt, mkStore (__init__ 400 300 0 (Some (firstn 10 main_body_points))) []).
Proof.
  apply draw_fewer_than_11_is_noop. right.
  exists (firstn 10 main_body_points). split; [reflexivity | cbn; lia].
Defined.

(** C5. For a character with exactly 11 [body_points], one [draw] call
    issues exactly 10 line calls, joining left shoulder-elbow, elbow-hand,
    right shoulder-elbow, elbow-hand, left shoulder-waist, right
    shoulder-waist, waist-left knee, left knee-left feet, waist-right knee,
    right knee-right feet, followed by exactly 11 circle calls, one centred
    at each absolute joint position; every call uses the colour given. *)
Theorem draw_ten_lines_eleven_circles
  (color : Color) (lw pr : Z) (s : Store) (bp : list (Z * Z)) :
  body_points (self s) = Some bp ->
  length bp = 11%nat ->
  let P := fun j : Joint => absolute (self s) (nth (joint_index j) bp (0, 0)) in
  let lines :=
    [Line color (P left_shoulder) (P left_elbow) lw;
     Line color (P left_elbow) (P left_hand) lw;
     Line color (P right_shoulder) (P right_elbow) lw;
     Line color (P right_elbow) (P right_hand) lw;
     Line color (P left_shoulder) (P waist) lw;
     Line color (P right_shoulder) (P waist) lw;
     Line color (P waist) (P left_knee) lw;
     Line color (P left_knee) (P left_feet) lw;
     Line color (P waist) (P right_knee) lw;
     Line color (P right_knee) (P right_feet) lw] in
  let circles := map (fun j => Circle color (P j) pr) all_joints in
  exists calls : list DrawCall,
    draw color lw pr s = Ok (tt, mkStore (self s) (surface s ++ calls)) /\
    calls = lines ++ circles /\
    filter is_line calls = lines /\
    filter is_circle calls = circles /\
    length (filter is_line calls) = 10%nat /\
    length (filter is_circle calls) = 11%nat /\
    Forall (fun d => call_color d = color) calls.
Proof.
  intros Hbp Hlen P lines circles.
  assert (Hge : (11 <= length bp)%nat) by lia.
  eexists. split; [apply (draw_renders color lw pr s bp Hbp Hge)|].
  subst P lines circles.
  do 11 (destruct bp as [|? bp]; [discriminate Hlen|]).
  destruct bp; [|discriminate Hlen].
  cbn [firstn map figure skeleton joint_discs bones all_joints at_joint
         joint_index nth fst snd app filter is_line is_circle length].
  repeat split.
  repeat constructor.
Qed.

Lemma draw_ten_lines_eleven_circles_witness :
  exists calls : list DrawCall,
    draw default_color default_line_width default_point_radius
      (mkStore main_character []) =
      Ok (tt, mkStore main_character calls) /\
    length (filter is_line calls) = 10%nat /\
    length (filter is_circle calls) = 11%nat /\
    filter is_circle calls =
      map (fun o => Circle default_color (400 + fst o, 300 + snd o)
                      default_point_radius) main_body_points.
Proof.
  destruct (draw_ten_lines_eleven_circles default_color default_line_width
              default_point_radius (mkStore main_character [])
              main_body_points eq_refl eq_refl)
    as (calls & Hdraw & _ & _ & Hcirc & Hnl & Hnc & _).
  exists calls. repeat split; assumption.
Defined.

(** C9. [draw] returns nothing and its only effect is on the surface, to
    which it may only append calls: whether or not it renders, [x], [y],
    [orientation] and [body_points] are the same afterwards. *)
Theorem draw_leaves_character_unchanged
  (color : Color) (lw pr : Z) (s : Store) :
  exists s' : Store,
    draw color lw pr s = Ok (tt, s') /\
    x (self s') = x (self s) /\
    y (self s') = y (self s) /\
    orientation (self s') = orientation (self s) /\
    body_points (self s') = body_points (self s) /\
    exists calls, surface s' = surface s ++ calls.
Proof.
  destruct (draw_total color lw pr s) as (calls & H).
  eexists. split; [exact H|]. cbn [self surface].
  repeat (split; [reflexivity|]). exists calls. reflexivity.
Qed.

(** C10. When [body_points] has more than 11 entries, [draw] does not fail
    and renders the figure of the first 11 offsets; what stands at index 11
    and beyond has no influence on the calls made. *)
Theorem draw_more_than_11_uses_first_11
  (color : Color) (lw pr : Z) (s : Store) (bp : list (Z * Z)) :
  body_points (self s) = Some bp ->
  (11 < length bp)%nat ->
  exists calls : list DrawCall,
    draw color lw pr s = Ok (tt, mkStore (self s) (surface s ++ calls)) /\
    calls = figure color lw pr (map (absolute (self s)) (firstn 11 bp)) /\
    forall rest : list (Z * Z),
      draw color lw pr (with_body_points (Some (firstn 11 bp ++ rest)) s) =
      Ok (tt, mkStore (self (with_body_points (Some (firstn 11 bp ++ rest)) s))
                (surface s ++ calls)).
Proof.
  intros Hbp Hlen.
  assert (Hge : (11 <= length bp)%nat) by lia.
  eexists. split; [apply (draw_renders color lw pr s bp Hbp Hge)|].
  split; [reflexivity|]. intros rest.
  assert (H11 : length (firstn 11 bp) = 11%nat)
    by (rewrite length_firstn; lia).
  rewrite (draw_renders color lw pr
             (with_body_points (Some (firstn 11 bp ++ rest)) s)
             (firstn 11 bp ++ rest) eq_refl)
    by (rewrite length_app; lia).
  assert (Hf : firstn 11 (firstn 11 bp ++ rest) = firstn 11 bp).
  { rewrite firstn_app, H11, firstn_firstn. cbn [Nat.sub Nat.min firstn].
    apply app_nil_r. }
  rewrite Hf. reflexivity.
Qed.

Lemma draw_more_than_11_uses_first_11_witness :
  draw default_color default_line_width default_point_radius
    (mkStore (__init__ 400 300 0 (Some (main_body_points ++ [(7, 7); (9, 9)])))
       []) =
  Ok (tt, mkStore (__init__ 400 300 0
                     (Some (main_body_points ++ [(7, 7); (9, 9)])))
            (figure default_color default_line_width default_point_radius
               (map (absolute main_character) main_body_points))).
Proof.
  destruct (draw_more_than_11_uses_first_11 default_color default_line_width
              default_point_radius
              (mkStore (__init__ 400 300 0
                          (Some (main_body_points ++ [(7, 7); (9, 9)]))) [])
              (main_body_points ++ [(7, 7); (9, 9)]) eq_refl)
    as (calls & Hdraw & Hcalls & _).
  - cbn. lia.
  - rewrite Hdraw, Hcalls. reflexivity.
Defined.

(** ** The orientation field *)

(** Each method call runs to completion; a [rotate] leaves a normalized
    orientation, every other call leaves the orientation as it found it. *)
Lemma run_call_orientation (k : Call) (s : Store) :
  exists s' : Store,
    run_call k s = Ok (tt, s') /\
    (if is_rotate k
     then normalized (orientation (self s'))
     else orientation (self s') = orientation (self s)).
Proof.
  destruct k as [dx dy | angle | | color lw pr]; cbn [run_call is_rotate].
  - rewrite move_spec. eexists. split; reflexivity.
  - rewrite rotate_spec. eexists. split; [reflexivity|].
    cbn [self orientation]. apply Z.mod_pos_bound. lia.
  - exists s. split; reflexivity.
  - destruct (draw_total color lw pr s) as (calls & H).
    eexists. split; [exact H | reflexivity].
Qed.

(** C6, as the code has it.  The constructor stores the orientation
    argument as given.  On a character constructed with integer fields, any
    sequence of [move], [rotate], [get_position] and [draw] calls with
    integer arguments runs to completion, and the orientation afterwards
    lies in [0, 360) provided the constructor argument did or the sequence
    contains a [rotate]. *)
Theorem orientation_normalized_invariant
  (x0 y0 o : Z) (bp : option (list (Z * Z))) (surf : Surface)
  (ks : list Call) :
  normalized o \/ existsb is_rotate ks = true ->
  orientation (__init__ x0 y0 o bp) = o /\
  exists s' : Store,
    run_calls ks (mkStore (__init__ x0 y0 o bp) surf) = Ok (tt, s') /\
    normalized (orientation (self s')).
Proof.
  intros H. split; [reflexivity|].
  assert (Hgen : forall s : Store,
             normalized (orientation (self s)) \/ existsb is_rotate ks = true ->
             exists s', run_calls ks s = Ok (tt, s') /\
                        normalized (orientation (self s'))).
  { clear. unfold run_calls.
    induction ks as [|k ks IH]; intros s H.
    - destruct H as [H | H]; [|discriminate H].
      exists s. split; [reflexivity | exact H].
    - destruct (run_call_orientation k s) as (s1 & Hrun & Hk).
      cbn [for_each]. unfold bind. rewrite Hrun.
      apply IH. cbn [existsb] in H.
      destruct (is_rotate k).
      + left. exact Hk.
      + rewrite Hk. exact H. }
  apply Hgen. exact H.
Qed.

Lemma orientation_normalized_invariant_witness :
  exists s' : Store,
    run_calls [CallMove 10 (-5); CallRotate (-725); CallDraw (0, 0, 0) 2 4;
               CallGetPosition]
      (mkStore (__init__ 400 300 370 (Some main_body_points)) []) =
      Ok (tt, s') /\
    normalized (orientation (self s')).
Proof.
  apply (orientation_normalized_invariant 400 300 370 (Some main_body_points) []
           [CallMove 10 (-5); CallRotate (-725); CallDraw (0, 0, 0) 2 4;
            CallGetPosition]).
  right. reflexivity.
Defined.

(** C6, as stated, fails at construction: a character built with
    orientation 370 stores 370. *)
Lemma constructor_keeps_orientation_370 :
  ~ normalized (orientation (__init__ 400 300 370 (Some main_body_points))).
Proof.
  unfold normalized. cbn. lia.
Qed.

(** C7, as the code has it.  For a character whose orientation is an
    integer in [0, 360), [rotate(360)], and more generally [rotate] by any
    integer multiple of 360, leaves the character exactly as it was. *)
Theorem rotate_360_identity_on_normalized (s : Store) :
  normalized (orientation (self s)) ->
  rotate 360 s = Ok (tt, s) /\
  forall k : Z, rotate (360 * k) s = Ok (tt, s).
Proof.
  intros Hn.
  assert (Hk : forall k : Z, rotate (360 * k) s = Ok (tt, s)).
  { intros k. rewrite rotate_spec.
    rewrite (Z.mul_comm 360 k), Z_mod_plus_full.
    rewrite Z.mod_small by exact Hn.
    destruct s as [[cx cy co cbp] surf]. reflexivity. }
  split; [exact (Hk 1) | exact Hk].
Qed.

Lemma rotate_360_identity_on_normalized_witness :
  rotate 360 (mkStore (__init__ 400 300 45 (Some main_body_points)) []) =
  Ok (tt, mkStore (__init__ 400 300 45 (Some main_body_points)) []).
Proof.
  apply (rotate_360_identity_on_normalized
           (mkStore (__init__ 400 300 45 (Some main_body_points)) [])).
  unfold normalized. cbn. lia.
Defined.

(** C7, as stated, fails on a character built with orientation 370:
    [rotate(360)] changes its orientation to 10. *)
Lemma rotate_360_changes_orientation_370 :
  exists s' : Store,
    rotate 360 (mkStore (__init__ 400 300 370 (Some main_body_points)) []) =
      Ok (tt, s') /\
    orientation (self s') = 10 /\
    orientation (self s') <>
      orientation (__init__ 400 300 370 (Some main_body_points)).
Proof.
  eexists. split; [reflexivity|]. cbn. split; [reflexivity | discriminate].
Qed.

(** * Further properties of the code *)

(** ** How [move] and [rotate] compose *)

(** X1. On integer fields and deltas, two moves in a row are one move by the sum of the deltas, so the
    order of two moves does not matter. *)
Theorem move_move_adds (dx1 dy1 dx2 dy2 : Z) (s : Store) :
  (move dx1 dy1 ;;; move dx2 dy2) s = move (dx1 + dx2) (dy1 + dy2) s /\
  (move dx1 dy1 ;;; move dx2 dy2) s = (move dx2 dy2 ;;; move dx1 dy1) s.
Proof.
  unfold bind. rewrite !move_spec. cbn [self surface x y orientation body_points].
  split; do 3 f_equal; f_equal; lia.
Qed.

(** X2. On integer fields and deltas, a move is undone exactly by the
    opposite move, whatever the
    position: nothing is clamped, so no information is lost. *)
Theorem move_opposite_restores (dx dy : Z) (s : Store) :
  (move dx dy ;;; move (- dx) (- dy)) s = Ok (tt, s).
Proof.
  unfold bind. rewrite !move_spec. cbn [self surface x y orientation body_points].
  destruct s as [[cx cy co cbp] surf]. cbn [self surface x y orientation body_points].
  do 3 f_equal; f_equal; lia.
Qed.

(** X3. On integer orientations and angles, two rotations in a row are one
    rotation by the sum of the angles,
    for every starting orientation, normalized or not. *)
Theorem rotate_rotate_adds (a b : Z) (s : Store) :
  (rotate a ;;; rotate b) s = rotate (a + b) s.
Proof.
  unfold bind. rewrite !rotate_spec.
  cbn [self surface x y orientation body_points].
  rewrite Zplus_mod_idemp_l, Z.add_assoc. reflexivity.
Qed.

(** X4. [move] and [rotate] commute. *)
Theorem move_rotate_commute (dx dy angle : Z) (s : Store) :
  (move dx dy ;;; rotate angle) s = (rotate angle ;;; move dx dy) s.
Proof.
  unfold bind. rewrite !move_spec, !rotate_spec. reflexivity.
Qed.

(** X5. On integer orientations and angles, rotating by an angle and then
    by its opposite only normalizes the
    orientation: the outcome is that of [rotate(0)], and it is the starting
    character exactly when the orientation was in [0, 360) already. *)
Theorem rotate_opposite_normalizes (angle : Z) (s : Store) :
  (rotate angle ;;; rotate (- angle)) s = rotate 0 s /\
  ((rotate angle ;;; rotate (- angle)) s = Ok (tt, s) <->
   normalized (orientation (self s))).
Proof.
  assert (H : (rotate angle ;;; rotate (- angle)) s = rotate 0 s).
  { unfold bind. rewrite !rotate_spec.
    cbn [self surface x y orientation body_points].
    rewrite Zplus_mod_idemp_l, <- Z.add_assoc, Z.add_opp_diag_r. reflexivity. }
  split; [exact H|]. rewrite H, rotate_spec, Z.add_0_r.
  destruct s as [[cx cy co cbp] surf]. cbn [self surface x y orientation body_points].
  unfold normalized. split.
  - intros E. injection E as E. rewrite <- E at 1 2.
    apply Z.mod_pos_bound. lia.
  - intros Hn. rewrite Z.mod_small by exact Hn. reflexivity.
Qed.

(** ** Sequences of method calls *)

Lemma total_angle_no_rotate (ks : list Call) :
  existsb is_rotate ks = false -> total_angle ks = 0.
Proof.
  induction ks as [|k ks IH]; [reflexivity|].
  destruct k; cbn [existsb is_rotate orb total_angle]; try exact IH.
  discriminate.
Qed.

Lemma run_calls_cons (k : Call) (ks : list Call) (s s1 : Store) :
  run_call k s = Ok (tt, s1) ->
  run_calls (k :: ks) s = run_calls ks s1.
Proof.
  intros H. unfold run_calls. cbn [for_each]. unfold bind. rewrite H.
  reflexivity.
Qed.

(** X6. On integer fields and arguments, any sequence of [move], [rotate],
    [get_position] and [draw] calls runs to completion; afterwards the position is the starting position
    plus the sum of the deltas of the moves, [body_points] is what it was,
    and the surface has only been appended to. *)
Theorem run_calls_position_and_frame (ks : list Call) :
  forall s : Store,
  exists s' : Store,
    run_calls ks s = Ok (tt, s') /\
    x (self s') = x (self s) + total_dx ks /\
    y (self s') = y (self s) + total_dy ks /\
    body_points (self s') = body_points (self s) /\
    exists calls, surface s' = surface s ++ calls.
Proof.
  induction ks as [|k ks IH]; intros s.
  - exists s. cbn. rewrite !Z.add_0_r. repeat split.
    exists []. symmetry. apply app_nil_r.
  - assert (Hk : exists s1 calls1,
               run_call k s = Ok (tt, s1) /\
               x (self s1) + total_dx ks = x (self s) + total_dx (k :: ks) /\
               y (self s1) + total_dy ks = y (self s) + total_dy (k :: ks) /\
               body_points (self s1) = body_points (self s) /\
               surface s1 = surface s ++ calls1).
    { destruct k as [dx dy | angle | | color lw pr]; cbn [run_call total_dx total_dy].
      - rewrite move_spec. eexists. exists []. split; [reflexivity|].
        cbn [self surface x y orientation body_points].
        rewrite app_nil_r. repeat split; lia.
      - rewrite rotate_spec. eexists. exists []. split; [reflexivity|].
        cbn [self surface x y orientation body_points].
        rewrite app_nil_r. repeat split.
      - exists s, []. rewrite app_nil_r. repeat split.
      - destruct (draw_total color lw pr s) as (calls & H).
        eexists. exists calls. split; [exact H|]. repeat split. }
    destruct Hk as (s1 & calls1 & Hrun & Hx & Hy & Hbp & Hsurf).
    destruct (IH s1) as (s' & Hrest & Hx' & Hy' & Hbp' & calls & Hsurf').
    exists s'. rewrite (run_calls_cons k ks s s1 Hrun).
    split; [exact Hrest|].
    split; [rewrite Hx'; exact Hx|].
    split; [rewrite Hy'; exact Hy|].
    split; [rewrite Hbp'; exact Hbp|].
    exists (calls1 ++ calls). rewrite Hsurf', Hsurf. symmetry. apply app_assoc.
Qed.

(** X7. On integer fields and arguments, after any sequence of calls the
    orientation is the starting one if
    the sequence holds no [rotate], and otherwise the starting one plus the
    sum of all the angles, modulo 360: intermediate normalizations do not
    show. *)
Theorem run_calls_orientation (ks : list Call) :
  forall s : Store,
  exists s' : Store,
    run_calls ks s = Ok (tt, s') /\
    orientation (self s') =
      if existsb is_rotate ks
      then (orientation (self s) + total_angle ks) mod 360
      else orientation (self s).
Proof.
  induction ks as [|k ks IH]; intros s.
  - exists s. split; reflexivity.
  - destruct (run_call_orientation k s) as (s1 & Hrun & Hk).
    destruct (IH s1) as (s' & Hrest & Ho).
    exists s'. rewrite (run_calls_cons k ks s s1 Hrun).
    split; [exact Hrest|]. rewrite Ho.
    destruct k as [dx dy | angle | | color lw pr];
      cbn [is_rotate existsb orb total_angle] in *;
      try (rewrite Hk; reflexivity).
    cbn [run_call] in Hrun. rewrite rotate_spec in Hrun. injection Hrun as <-.
    cbn [self orientation].
    destruct (existsb is_rotate ks) eqn:E.
    + rewrite Zplus_mod_idemp_l, Z.add_assoc. reflexivity.
    + rewrite (total_angle_no_rotate ks E), Z.add_0_r. reflexivity.
Qed.

(** ** [draw] after [move] and [rotate] *)

Lemma figure_translated (color : Color) (lw pr dx dy : Z) (c : Character)
  (l : list (Z * Z)) :
  length l = 11%nat ->
  figure color lw pr
    (map (absolute (mkCharacter (x c + dx) (y c + dy) (orientation c)
                      (body_points c))) l) =
  map (translate_call dx dy) (figure color lw pr (map (absolute c) l)).
Proof.
  intros Hlen.
  do 11 (destruct l as [|? l]; [discriminate Hlen|]).
  destruct l; [|discriminate Hlen].
  unfold figure, skeleton, joint_discs, bones, at_joint, absolute,
    translate_call, translate_point.
  cbn [map joint_index nth fst snd app x y].
  rewrite !Z.add_assoc. reflexivity.
Qed.

(** X8. On integer fields, offsets and deltas, drawing after [move(dx, dy)]
    makes the calls that drawing before the
    move makes, each with its points shifted by [(dx, dy)]; colours, widths
    and radii are the same.  This holds for every character, rendered or
    not. *)
Theorem draw_after_move_is_translated
  (color : Color) (lw pr dx dy : Z) (s : Store) :
  exists (calls : list DrawCall) (s' : Store),
    draw color lw pr s = Ok (tt, mkStore (self s) (surface s ++ calls)) /\
    move dx dy s = Ok (tt, s') /\
    (move dx dy ;;; draw color lw pr) s =
      Ok (tt, mkStore (self s')
                (surface s ++ map (translate_call dx dy) calls)).
Proof.
  exists (match body_points (self s) with
          | Some bp =>
              if Nat.ltb (length bp) 11 then []
              else figure color lw pr (map (absolute (self s)) (firstn 11 bp))
          | None => []
          end).
  eexists. split; [|split; [apply move_spec|]].
  - destruct (body_points (self s)) as [bp|] eqn:Hbp.
    + destruct (Nat.ltb (length bp) 11) eqn:Hlen.
      * rewrite app_nil_r, draw_skips; [destruct s; reflexivity|].
        rewrite Hbp. apply Nat.ltb_lt. exact Hlen.
      * apply Nat.ltb_ge in Hlen. apply (draw_renders color lw pr s bp Hbp Hlen).
    + rewrite app_nil_r, draw_skips; [destruct s; reflexivity|].
      rewrite Hbp. exact I.
  - unfold bind. rewrite move_spec.
    destruct (body_points (self s)) as [bp|] eqn:Hbp.
    + destruct (Nat.ltb (length bp) 11) eqn:Hlen.
      * rewrite draw_skips; [cbn [map]; rewrite app_nil_r; reflexivity|].
        cbn [self body_points]. apply Nat.ltb_lt. exact Hlen.
      * apply Nat.ltb_ge in Hlen.
        erewrite draw_renders;
          [| cbn [self body_points]; reflexivity | exact Hlen].
        cbn [self surface].
        rewrite <- (figure_translated color lw pr dx dy (self s) (firstn 11 bp))
          by (rewrite length_firstn; lia).
        rewrite Hbp. reflexivity.
    + rewrite draw_skips; [cbn [map]; rewrite app_nil_r; reflexivity|].
      exact I.
Qed.

(** X9. Drawing after [rotate(angle)] makes exactly the calls that drawing
    without the rotation makes, for every character and every angle. *)
Theorem draw_after_rotate_is_same
  (color : Color) (lw pr angle : Z) (s : Store) :
  exists (calls : list DrawCall) (s' : Store),
    draw color lw pr s = Ok (tt, mkStore (self s) (surface s ++ calls)) /\
    rotate angle s = Ok (tt, s') /\
    (rotate angle ;;; draw color lw pr) s =
      Ok (tt, mkStore (self s') (surface s ++ calls)).
Proof.
  exists (match body_points (self s) with
          | Some bp =>
              if Nat.ltb (length bp) 11 then []
              else figure color lw pr (map (absolute (self s)) (firstn 11 bp))
          | None => []
          end).
  eexists. split; [|split; [apply rotate_spec|]].
  - destruct (body_points (self s)) as [bp|] eqn:Hbp.
    + destruct (Nat.ltb (length bp) 11) eqn:Hlen.
      * rewrite app_nil_r, draw_skips; [destruct s; reflexivity|].
        rewrite Hbp. apply Nat.ltb_lt. exact Hlen.
      * apply Nat.ltb_ge in Hlen. apply (draw_renders color lw pr s bp Hbp Hlen).
    + rewrite app_nil_r, draw_skips; [destruct s; reflexivity|].
      rewrite Hbp. exact I.
  - unfold bind. rewrite rotate_spec.
    destruct (body_points (self s)) as [bp|] eqn:Hbp.
    + destruct (Nat.ltb (length bp) 11) eqn:Hlen.
      * rewrite draw_skips; [rewrite app_nil_r; reflexivity|].
        cbn [self body_points]. apply Nat.ltb_lt. exact Hlen.
      * apply Nat.ltb_ge in Hlen.
        erewrite draw_renders;
          [| cbn [self body_points]; reflexivity | exact Hlen].
        reflexivity.
    + rewrite draw_skips; [rewrite app_nil_r; reflexivity|].
      exact I.
Qed.

(** X10. One [draw] call makes either no drawing call or exactly 21 of
    them, 10 line calls followed by 11 circle calls: the latter when
    [body_points] has at least 11 entries, the former when it is [None] or
    shorter. *)
Theorem draw_makes_0_or_21_calls (color : Color) (lw pr : Z) (s : Store) :
  exists calls : list DrawCall,
    draw color lw pr s = Ok (tt, mkStore (self s) (surface s ++ calls)) /\
    let renders :=
      match body_points (self s) with
      | Some l => Nat.leb 11 (length l)
      | None => false
      end in
    calls = filter is_line calls ++ filter is_circle calls /\
    length (filter is_line calls) = (if renders then 10 else 0)%nat /\
    length (filter is_circle calls) = (if renders then 11 else 0)%nat /\
    length calls = (if renders then 21 else 0)%nat.
Proof.
  destruct (body_points (self s)) as [bp|] eqn:Hbp.
  - destruct (Nat.leb 11 (length bp)) eqn:Hlen.
    + apply Nat.leb_le in Hlen. eexists.
      split; [apply (draw_renders color lw pr s bp Hbp Hlen)|].
      destruct (firstn_11 bp Hlen)
        as (a0 & a1 & a2 & a3 & a4 & a5 & a6 & a7 & a8 & a9 & a10 & ->).
      repeat split.
    + apply Nat.leb_gt in Hlen. exists []. rewrite draw_skips.
      * rewrite app_nil_r. destruct s; repeat split.
      * rewrite Hbp. exact Hlen.
  - exists []. rewrite draw_skips.
    + rewrite app_nil_r. destruct s; repeat split.
    + rewrite Hbp. exact I.
Qed.

(** ** The guard of [draw] is what keeps the comprehension from raising *)

Lemma comprehension_draw_point_short (s : Store) (bp : list (Z * Z)) :
  body_points (self s) = Some bp ->
  forall n k : nat,
    (k <= length bp < k + n)%nat ->
    comprehension draw_point (seq k n) s = Raise IndexError.
Proof.
  intros Hbp. induction n as [|n IH]; intros k Hk; [lia|].
  cbn [seq comprehension]. unfold bind at 1.
  destruct (nth_error bp k) as [o|] eqn:Ho.
  - rewrite (draw_point_spec s bp k o Hbp Ho).
    assert (Hlt : (k < length bp)%nat)
      by (apply nth_error_Some; rewrite Ho; discriminate).
    unfold bind at 1. rewrite IH by lia. reflexivity.
  - unfold draw_point, bind, get_self, lift, getitem, list_getitem.
    rewrite Hbp, Ho. reflexivity.
Qed.

(** X11. The guard of [draw] is true exactly when the comprehension over
    [range(11)] would raise: in every state the guard evaluates without
    raising; it is true if and only if [body_points] is [None] or has fewer
    than 11 entries (the empty list included); in those states the
    comprehension on its own raises, [TypeError] for [None] and
    [IndexError] for a short list; in all other states it returns a list
    and changes nothing. *)
Theorem draw_points_raises_without_guard (s : Store) :
  exists skip : bool,
    draw_guard s = Ok (skip, s) /\
    (skip = true <->
     match body_points (self s) with
     | None => True
     | Some l => (length l < 11)%nat
     end) /\
    (if skip
     then draw_points s =
          Raise (match body_points (self s) with
                 | None => TypeError
                 | Some _ => IndexError
                 end)
     else exists points : list Point,
            draw_points s = Ok (points, s) /\ length points = 11%nat).
Proof.
  eexists. split; [apply draw_guard_spec|].
  destruct (body_points (self s)) as [l|] eqn:Hbp.
  - destruct (Nat.ltb (length l) 11) eqn:Hlen.
    + apply Nat.ltb_lt in Hlen. split; [split; intros _; [exact Hlen | reflexivity]|].
      unfold draw_points, range.
      apply (comprehension_draw_point_short s l Hbp 11 0). lia.
    + apply Nat.ltb_ge in Hlen. split.
      * split; [discriminate | intros H; lia].
      * eexists. split; [apply (draw_points_spec s l Hbp Hlen)|].
        rewrite length_map, length_firstn. lia.
  - split; [split; intros _; [exact I | reflexivity]|].
    unfold draw_points, range. cbn [seq comprehension].
    unfold bind at 1. unfold draw_point, bind, get_self, lift, getitem.
    rewrite Hbp. reflexivity.
Qed.

(** ** [__repr__] *)


Section ReprFacts.
Import String.
Local Open Scope string_scope.




(** The decimal text of some integers. *)
Example str_examples :
  str 0 = "0" /\ str 410 = "410" /\ str (-45) = "-45" /\ str 1000 = "1000".
Proof. repeat split. Qed.


(** The text of the character that [main] builds, after [move(10, -5)]
    and [rotate(-45)]. *)
Example repr_after_move_and_rotate :
  (move 10 (-5) ;;; rotate (-45) ;;; __repr__) (mkStore main_character []) =
  Ok ("Character(x=410, y=295, orientation=315)",
      mkStore (mkCharacter 410 295 315 (Some main_body_points)) []).
Proof. reflexivity. Qed.

End ReprFacts.

(** ** [main] *)

Lemma handle_events_spec (evs : list Event) :
  forall r : bool, handle_events evs r = r && negb (existsb is_QUIT evs).
Proof.
  unfold handle_events.
  induction evs as [|e evs IH]; intros r; cbn [fold_left existsb].
  - rewrite andb_true_r. reflexivity.
  - rewrite IH. destruct (is_QUIT e), r; reflexivity.
Qed.

Lemma draw_main_character :
  draw default_color default_line_width default_point_radius
    (mkStore main_character []) = Ok (tt, mkStore main_character main_figure).
Proof. reflexivity. Qed.

Lemma main_frame_after (events : nat -> list Event) (k : nat) (r : bool) :
  main_frame events (main_state_after k r) =
  Ok (main_state_after (S k) (r && negb (existsb is_QUIT (events k)))).
Proof.
  unfold main_frame, main_state_after, pygame_event_get, draw_on_screen,
    screen_fill.
  cbn [pygame character running screen event_polls initialized display_mode
         display_caption screen_color flipped clock_ticks].
  rewrite draw_main_character, handle_events_spec.
  unfold clock_tick, pygame_display_flip.
  cbn [self surface screen event_polls initialized display_mode
         display_caption screen_color flipped clock_ticks].
  rewrite <- !repeat_cons. reflexivity.
Qed.

Lemma main_loop_stopped (events : nat -> list Event) (fuel : nat)
  (st : MainState) :
  running st = false -> main_loop events fuel st = Some (Ok st).
Proof.
  intros H. destruct fuel; cbn [main_loop]; rewrite H; reflexivity.
Qed.

Lemma main_loop_until_quit (events : nat -> list Event) (n : nat) :
  existsb is_QUIT (events n) = true ->
  forall d k fuel : nat,
    n = (k + d)%nat ->
    (forall m, (k <= m < n)%nat -> existsb is_QUIT (events m) = false) ->
    (d < fuel)%nat ->
    main_loop events fuel (main_state_after k true) =
    Some (Ok (main_state_after (S n) false)).
Proof.
  intros Hq. induction d as [|d IH]; intros k fuel Hn Hno Hfuel;
    (destruct fuel as [|fuel]; [lia|]);
    cbn [main_loop main_state_after running negb];
    fold (main_state_after k true); rewrite main_frame_after.
  - replace k with n by lia. rewrite Hq. cbn [negb andb].
    apply main_loop_stopped. reflexivity.
  - rewrite (Hno k) by lia. cbn [negb andb].
    apply IH; [lia | intros m Hm; apply Hno; lia | lia].
Qed.

Lemma main_loop_without_quit (events : nat -> list Event) :
  forall fuel k : nat,
    (forall m, (k <= m < k + fuel)%nat -> existsb is_QUIT (events m) = false) ->
    main_loop events fuel (main_state_after k true) = None.
Proof.
  induction fuel as [|fuel IH]; intros k Hno;
    cbn [main_loop main_state_after running negb]; [reflexivity|].
  fold (main_state_after k true). rewrite main_frame_after.
  rewrite (Hno k) by lia. cbn [negb andb].
  apply IH. intros m Hm. apply Hno. lia.
Qed.

(** X13. If the first [QUIT] event arrives in the poll number [n]
    (counting from 0), [main] returns normally after exactly [n + 1] passes
    of the loop: the pass that reads [QUIT] is still drawn and shown.  Every
    frame shown is the same picture, the figure of the pose at (400, 300)
    on black; events of other types, and whatever follows [QUIT], have no
    effect. *)
Theorem main_stops_after_first_quit (events : nat -> list Event) (n : nat) :
  (forall m, (m < n)%nat -> existsb is_QUIT (events m) = false) ->
  existsb is_QUIT (events n) = true ->
  forall fuel : nat,
    (n < fuel)%nat ->
    main events fuel = Some (Ok (main_result (S n))) /\
    event_polls (main_result (S n)) = S n /\
    flipped (main_result (S n)) = repeat ((0, 0, 0), main_figure) (S n) /\
    clock_ticks (main_result (S n)) = repeat 60 (S n).
Proof.
  intros Hno Hq fuel Hfuel. split; [|repeat split].
  unfold main.
  change (mkMainState _ true _) with (main_state_after 0 true).
  rewrite (main_loop_until_quit events n Hq n 0 fuel); try lia.
  - reflexivity.
  - intros m Hm. apply Hno. lia.
Qed.

Lemma main_stops_after_first_quit_witness :
  main (fun m => if Nat.eqb m 2
                 then [mkEvent (OtherEvent 5); mkEvent QUIT;
                       mkEvent (OtherEvent 1)]
                 else [mkEvent (OtherEvent 3)]) 3 =
  Some (Ok (main_result 3)).
Proof.
  apply (main_stops_after_first_quit
           (fun m => if Nat.eqb m 2
                     then [mkEvent (OtherEvent 5); mkEvent QUIT;
                           mkEvent (OtherEvent 1)]
                     else [mkEvent (OtherEvent 3)]) 2).
  - intros m Hm. destruct m as [|[|m]]; [reflexivity | reflexivity | lia].
  - reflexivity.
  - lia.
Defined.

(** X14. As long as no [QUIT] event has been polled the loop of [main]
    keeps running: if none of the first [fuel] polls holds a [QUIT], [main]
    has not returned after [fuel] passes, whatever other events came. *)
Theorem main_runs_while_no_quit (events : nat -> list Event) (fuel : nat) :
  (forall m, (m < fuel)%nat -> existsb is_QUIT (events m) = false) ->
  main events fuel = None.
Proof.
  intros Hno. unfold main.
  change (mkMainState _ true _) with (main_state_after 0 true).
  rewrite (main_loop_without_quit events fuel 0); [reflexivity|].
  intros m Hm. apply Hno. lia.
Qed.

Lemma main_runs_while_no_quit_witness :
  main (fun m => [mkEvent (OtherEvent (Z.of_nat m))]) 5 = None.
Proof.
  apply (main_runs_while_no_quit
           (fun m => [mkEvent (OtherEvent (Z.of_nat m))]) 5).
  intros m Hm. reflexivity.
Defined.

(** * Integer and float fields *)

(** The model of [rotate] used in the claims is the numeric one at the
    integers. *)
Lemma rotate_is_numeric_at_int (angle : Z) (s : Store) :
  rotate angle s =
  Ok (tt, mkStore (character_of_numeric
                     (Numeric.rotate Z Z.add int_mod_360 angle
                        (numeric_of_character (self s))))
            (surface s)).
Proof. reflexivity. Qed.

(** So is the model of [move]. *)
Lemma move_is_numeric_at_int (dx dy : Z) (s : Store) :
  move dx dy s =
  Ok (tt, mkStore (character_of_numeric
                     (Numeric.move Z Z.add dx dy
                        (numeric_of_character (self s))))
            (surface s)).
Proof. reflexivity. Qed.

Section FloatFacts.
Import PrimFloat.
Local Open Scope float_scope.
#[local] Set Warnings "-inexact-float".


(** A [nan] angle leaves a [nan] orientation. *)
Example rotate_float_nan_angle :
  is_nan (Numeric.orientation float (rotate_float nan (float_character 0)))
  = true.
Proof. reflexivity. Qed.

(** On float fields [rotate(360)] need not give the orientation back, even
    one inside [0, 360): the sum is rounded before the remainder is taken. *)
Example rotate_float_360_drifts :
  float_normalized 0.1 = true /\
  Numeric.orientation float (rotate_float 360 (float_character 0.1)) =
    0.10000000000002274.
Proof. split; reflexivity. Qed.

(** On float fields two rotations are not one rotation by the sum. *)
Example rotate_float_twice_is_not_sum :
  Numeric.orientation float
    (rotate_float 0.3 (rotate_float 359.9 (float_character 10))) =
    10.199999999999978 /\
  Numeric.orientation float
    (rotate_float (359.9 + 0.3) (float_character 10)) = 10.199999999999989.
Proof. split; reflexivity. Qed.

(** On float fields a move is not always undone by the opposite move. *)
Example move_float_opposite_loses_position :
  Numeric.get_position float
    (move_float (-1e16) 0
       (move_float 1e16 0 (Numeric.__init__ float 1 300 0 None))) =
  (0, 300).
Proof. reflexivity. Qed.

End FloatFacts.
